(** * Machine-level operator builder of the TurboFan compiler
    (src/compiler/machine-operator.h), embedded in Rocq. *)

From Stdlib Require Import ZArith String Bool Lia.

Open Scope Z_scope.

(** ** Representation and barrier model *)

(** [enum MachineRepresentation], including its [kMachineLast] sentinel. *)
Inductive MachineRepresentation : Type :=
  | kMachineWord8
  | kMachineWord16
  | kMachineWord32
  | kMachineWord64
  | kMachineFloat64
  | kMachineTagged
  | kMachineLast.

Scheme Equality for MachineRepresentation.

(** [enum WriteBarrierKind]. *)
Inductive WriteBarrierKind : Type :=
  | kNoWriteBarrier
  | kFullWriteBarrier.

(** [struct StoreRepresentation]. *)
Record StoreRepresentation : Type := {
  rep : MachineRepresentation;
  write_barrier_kind : WriteBarrierKind
}.

(** ** Opcodes *)

(** Modelled from the spec: the opcode space [IrOpcode] (opcodes.h, not under
    src/) is a closed, externally owned enumeration; these are the opcodes the
    builder draws from. *)
Module IrOpcode.

Inductive Value : Type :=
  | kLoad
  | kStore
  | kWord32And
  | kWord32Or
  | kWord32Xor
  | kWord32Shl
  | kWord32Shr
  | kWord32Sar
  | kWord32Equal
  | kWord64And
  | kWord64Or
  | kWord64Xor
  | kWord64Shl
  | kWord64Shr
  | kWord64Sar
  | kWord64Equal
  | kInt32Add
  | kInt32Sub
  | kInt32Mul
  | kInt32Div
  | kInt32UDiv
  | kInt32Mod
  | kInt32UMod
  | kInt32LessThan
  | kInt32LessThanOrEqual
  | kUint32LessThan
  | kUint32LessThanOrEqual
  | kInt64Add
  | kInt64Sub
  | kInt64Mul
  | kInt64Div
  | kInt64UDiv
  | kInt64Mod
  | kInt64UMod
  | kInt64LessThan
  | kInt64LessThanOrEqual
  | kConvertInt32ToInt64
  | kConvertInt64ToInt32
  | kConvertInt32ToFloat64
  | kConvertUint32ToFloat64
  | kConvertFloat64ToInt32
  | kConvertFloat64ToUint32
  | kFloat64Add
  | kFloat64Sub
  | kFloat64Mul
  | kFloat64Div
  | kFloat64Mod
  | kFloat64Equal
  | kFloat64LessThan
  | kFloat64LessThanOrEqual
.

(** The stringification [#name] of the opcode's name, as the macros do. *)
Definition name (op : Value) : string :=
  match op with
  | kLoad => "Load"
  | kStore => "Store"
  | kWord32And => "Word32And"
  | kWord32Or => "Word32Or"
  | kWord32Xor => "Word32Xor"
  | kWord32Shl => "Word32Shl"
  | kWord32Shr => "Word32Shr"
  | kWord32Sar => "Word32Sar"
  | kWord32Equal => "Word32Equal"
  | kWord64And => "Word64And"
  | kWord64Or => "Word64Or"
  | kWord64Xor => "Word64Xor"
  | kWord64Shl => "Word64Shl"
  | kWord64Shr => "Word64Shr"
  | kWord64Sar => "Word64Sar"
  | kWord64Equal => "Word64Equal"
  | kInt32Add => "Int32Add"
  | kInt32Sub => "Int32Sub"
  | kInt32Mul => "Int32Mul"
  | kInt32Div => "Int32Div"
  | kInt32UDiv => "Int32UDiv"
  | kInt32Mod => "Int32Mod"
  | kInt32UMod => "Int32UMod"
  | kInt32LessThan => "Int32LessThan"
  | kInt32LessThanOrEqual => "Int32LessThanOrEqual"
  | kUint32LessThan => "Uint32LessThan"
  | kUint32LessThanOrEqual => "Uint32LessThanOrEqual"
  | kInt64Add => "Int64Add"
  | kInt64Sub => "Int64Sub"
  | kInt64Mul => "Int64Mul"
  | kInt64Div => "Int64Div"
  | kInt64UDiv => "Int64UDiv"
  | kInt64Mod => "Int64Mod"
  | kInt64UMod => "Int64UMod"
  | kInt64LessThan => "Int64LessThan"
  | kInt64LessThanOrEqual => "Int64LessThanOrEqual"
  | kConvertInt32ToInt64 => "ConvertInt32ToInt64"
  | kConvertInt64ToInt32 => "ConvertInt64ToInt32"
  | kConvertInt32ToFloat64 => "ConvertInt32ToFloat64"
  | kConvertUint32ToFloat64 => "ConvertUint32ToFloat64"
  | kConvertFloat64ToInt32 => "ConvertFloat64ToInt32"
  | kConvertFloat64ToUint32 => "ConvertFloat64ToUint32"
  | kFloat64Add => "Float64Add"
  | kFloat64Sub => "Float64Sub"
  | kFloat64Mul => "Float64Mul"
  | kFloat64Div => "Float64Div"
  | kFloat64Mod => "Float64Mod"
  | kFloat64Equal => "Float64Equal"
  | kFloat64LessThan => "Float64LessThan"
  | kFloat64LessThanOrEqual => "Float64LessThanOrEqual"
  end.
End IrOpcode.

(** ** Operator descriptors *)

(** Modelled from the spec: [Operator], [SimpleOperator] and [Operator1<T>]
    (operator.h, not under src/).  The property set is a combinable flag set
    with the bits Pure, Commutative, Associative, NoRead, NoWrite and NoThrow;
    a descriptor carries its opcode, properties, input and output arity,
    mnemonic and an optional typed parameter. *)
Module Operator.

Definition Properties := Z.

Definition kNoProperties : Properties := 0.
Definition kPure : Properties := Z.shiftl 1 0.
Definition kCommutative : Properties := Z.shiftl 1 1.
Definition kAssociative : Properties := Z.shiftl 1 2.
Definition kNoRead : Properties := Z.shiftl 1 3.
Definition kNoWrite : Properties := Z.shiftl 1 4.
Definition kNoThrow : Properties := Z.shiftl 1 5.

(** The typed payload of [Operator1<T>]; [SimpleOperator] has none. *)
Inductive OpParameter : Type :=
  | NoParameter
  | RepParameter (r : MachineRepresentation)
  | StoreParameter (s : StoreRepresentation).

Record t : Type := mk {
  opcode : IrOpcode.Value;
  properties : Properties;
  input_count : nat;
  output_count : nat;
  mnemonic : string;
  parameter : OpParameter
}.

(** [Operator::HasProperty]: all bits of [p] are set. *)
Definition HasProperty (op : t) (p : Properties) : bool :=
  Z.land (properties op) p =? p.

(** [SimpleOperator(opcode, properties, inputs, outputs, mnemonic)]. *)
Definition SimpleOperator (opcode : IrOpcode.Value) (props : Properties)
    (inputs outputs : nat) (mnemonic : string) : t :=
  mk opcode props inputs outputs mnemonic NoParameter.

(** [Operator1<T>(opcode, properties, inputs, outputs, mnemonic, parameter)]. *)
Definition Operator1 (opcode : IrOpcode.Value) (props : Properties)
    (inputs outputs : nat) (mnemonic : string) (p : OpParameter) : t :=
  mk opcode props inputs outputs mnemonic p.

End Operator.

(** ** The builder *)

(** The arena handle [Zone*]: borrowed, never inspected by the builder. *)
Definition Zone := nat.

Record MachineOperatorBuilder : Type := {
  zone_ : Zone;
  word_ : MachineRepresentation
}.

(** The constructor; [None] is the fatal [CHECK] failure (process abort). *)
Definition MachineOperatorBuilder_new (zone : Zone) (word : MachineRepresentation)
    : option MachineOperatorBuilder :=
  if MachineRepresentation_beq word kMachineWord32
     || MachineRepresentation_beq word kMachineWord64
  then Some {| zone_ := zone; word_ := word |}
  else None.

(** [pointer_rep()], the default word, from the target's [kPointerSize]. *)
Definition pointer_rep (kPointerSize : Z) : MachineRepresentation :=
  if kPointerSize =? 8 then kMachineWord64 else kMachineWord32.

Definition is32 (b : MachineOperatorBuilder) : bool :=
  MachineRepresentation_beq (word_ b) kMachineWord32.
Definition is64 (b : MachineOperatorBuilder) : bool :=
  MachineRepresentation_beq (word_ b) kMachineWord64.
Definition word (b : MachineOperatorBuilder) : MachineRepresentation := word_ b.

(** The macros [SIMPLE], [OP1], [BINOP], [BINOP_C], [BINOP_AC], [UNOP]. *)
Definition SIMPLE (name : IrOpcode.Value) (properties : Operator.Properties)
    (inputs outputs : nat) : Operator.t :=
  Operator.SimpleOperator name properties inputs outputs (IrOpcode.name name).

Definition OP1 (name : IrOpcode.Value) (pname : Operator.OpParameter)
    (properties : Operator.Properties) (inputs outputs : nat) : Operator.t :=
  Operator.Operator1 name (Z.lor properties Operator.kNoThrow)
    inputs outputs (IrOpcode.name name) pname.

Definition BINOP (name : IrOpcode.Value) : Operator.t :=
  SIMPLE name Operator.kPure 2 1.
Definition BINOP_C (name : IrOpcode.Value) : Operator.t :=
  SIMPLE name (Z.lor Operator.kCommutative Operator.kPure) 2 1.
Definition BINOP_AC (name : IrOpcode.Value) : Operator.t :=
  SIMPLE name
    (Z.lor (Z.lor Operator.kAssociative Operator.kCommutative) Operator.kPure) 2 1.
Definition UNOP (name : IrOpcode.Value) : Operator.t :=
  SIMPLE name Operator.kPure 1 1.

(** load [base + index] *)
Definition Load (b : MachineOperatorBuilder) (rep : MachineRepresentation)
    : Operator.t :=
  OP1 IrOpcode.kLoad (Operator.RepParameter rep) Operator.kNoWrite 2 1.

(** store [base + index], value *)
Definition Store (b : MachineOperatorBuilder) (rep : MachineRepresentation)
    (kind : WriteBarrierKind) : Operator.t :=
  let store_rep := {| rep := rep; write_barrier_kind := kind |} in
  OP1 IrOpcode.kStore (Operator.StoreParameter store_rep) Operator.kNoRead 3 0.

(** [Store(rep)] with the default argument [kind = kNoWriteBarrier]. *)
Definition Store_default (b : MachineOperatorBuilder) (rep : MachineRepresentation)
    : Operator.t :=
  Store b rep kNoWriteBarrier.

Definition Word32And (b : MachineOperatorBuilder) : Operator.t :=
  BINOP_AC IrOpcode.kWord32And.
Definition Word32Or (b : MachineOperatorBuilder) : Operator.t :=
  BINOP_AC IrOpcode.kWord32Or.
Definition Word32Xor (b : MachineOperatorBuilder) : Operator.t :=
  BINOP_AC IrOpcode.kWord32Xor.
Definition Word32Shl (b : MachineOperatorBuilder) : Operator.t :=
  BINOP IrOpcode.kWord32Shl.
Definition Word32Shr (b : MachineOperatorBuilder) : Operator.t :=
  BINOP IrOpcode.kWord32Shr.
Definition Word32Sar (b : MachineOperatorBuilder) : Operator.t :=
  BINOP IrOpcode.kWord32Sar.
Definition Word32Equal (b : MachineOperatorBuilder) : Operator.t :=
  BINOP_C IrOpcode.kWord32Equal.
Definition Word64And (b : MachineOperatorBuilder) : Operator.t :=
  BINOP_AC IrOpcode.kWord64And.
Definition Word64Or (b : MachineOperatorBuilder) : Operator.t :=
  BINOP_AC IrOpcode.kWord64Or.
Definition Word64Xor (b : MachineOperatorBuilder) : Operator.t :=
  BINOP_AC IrOpcode.kWord64Xor.
Definition Word64Shl (b : MachineOperatorBuilder) : Operator.t :=
  BINOP IrOpcode.kWord64Shl.
Definition Word64Shr (b : MachineOperatorBuilder) : Operator.t :=
  BINOP IrOpcode.kWord64Shr.
Definition Word64Sar (b : MachineOperatorBuilder) : Operator.t :=
  BINOP IrOpcode.kWord64Sar.
Definition Word64Equal (b : MachineOperatorBuilder) : Operator.t :=
  BINOP_C IrOpcode.kWord64Equal.
Definition Int32Add (b : MachineOperatorBuilder) : Operator.t :=
  BINOP_AC IrOpcode.kInt32Add.
Definition Int32Sub (b : MachineOperatorBuilder) : Operator.t :=
  BINOP IrOpcode.kInt32Sub.
Definition Int32Mul (b : MachineOperatorBuilder) : Operator.t :=
  BINOP_AC IrOpcode.kInt32Mul.
Definition Int32Div (b : MachineOperatorBuilder) : Operator.t :=
  BINOP IrOpcode.kInt32Div.
Definition Int32UDiv (b : MachineOperatorBuilder) : Operator.t :=
  BINOP IrOpcode.kInt32UDiv.
Definition Int32Mod (b : MachineOperatorBuilder) : Operator.t :=
  BINOP IrOpcode.kInt32Mod.
Definition Int32UMod (b : MachineOperatorBuilder) : Operator.t :=
  BINOP IrOpcode.kInt32UMod.
Definition Int32LessThan (b : MachineOperatorBuilder) : Operator.t :=
  BINOP IrOpcode.kInt32LessThan.
Definition Int32LessThanOrEqual (b : MachineOperatorBuilder) : Operator.t :=
  BINOP IrOpcode.kInt32LessThanOrEqual.
Definition Uint32LessThan (b : MachineOperatorBuilder) : Operator.t :=
  BINOP IrOpcode.kUint32LessThan.
Definition Uint32LessThanOrEqual (b : MachineOperatorBuilder) : Operator.t :=
  BINOP IrOpcode.kUint32LessThanOrEqual.
Definition Int64Add (b : MachineOperatorBuilder) : Operator.t :=
  BINOP_AC IrOpcode.kInt64Add.
Definition Int64Sub (b : MachineOperatorBuilder) : Operator.t :=
  BINOP IrOpcode.kInt64Sub.
Definition Int64Mul (b : MachineOperatorBuilder) : Operator.t :=
  BINOP_AC IrOpcode.kInt64Mul.
Definition Int64Div (b : MachineOperatorBuilder) : Operator.t :=
  BINOP IrOpcode.kInt64Div.
Definition Int64UDiv (b : MachineOperatorBuilder) : Operator.t :=
  BINOP IrOpcode.kInt64UDiv.
Definition Int64Mod (b : MachineOperatorBuilder) : Operator.t :=
  BINOP IrOpcode.kInt64Mod.
Definition Int64UMod (b : MachineOperatorBuilder) : Operator.t :=
  BINOP IrOpcode.kInt64UMod.
Definition Int64LessThan (b : MachineOperatorBuilder) : Operator.t :=
  BINOP IrOpcode.kInt64LessThan.
Definition Int64LessThanOrEqual (b : MachineOperatorBuilder) : Operator.t :=
  BINOP IrOpcode.kInt64LessThanOrEqual.
Definition ConvertInt32ToInt64 (b : MachineOperatorBuilder) : Operator.t :=
  UNOP IrOpcode.kConvertInt32ToInt64.
Definition ConvertInt64ToInt32 (b : MachineOperatorBuilder) : Operator.t :=
  UNOP IrOpcode.kConvertInt64ToInt32.
Definition ConvertInt32ToFloat64 (b : MachineOperatorBuilder) : Operator.t :=
  UNOP IrOpcode.kConvertInt32ToFloat64.
Definition ConvertUint32ToFloat64 (b : MachineOperatorBuilder) : Operator.t :=
  UNOP IrOpcode.kConvertUint32ToFloat64.
Definition ConvertFloat64ToInt32 (b : MachineOperatorBuilder) : Operator.t :=
  UNOP IrOpcode.kConvertFloat64ToInt32.
Definition ConvertFloat64ToUint32 (b : MachineOperatorBuilder) : Operator.t :=
  UNOP IrOpcode.kConvertFloat64ToUint32.
Definition Float64Add (b : MachineOperatorBuilder) : Operator.t :=
  BINOP_C IrOpcode.kFloat64Add.
Definition Float64Sub (b : MachineOperatorBuilder) : Operator.t :=
  BINOP IrOpcode.kFloat64Sub.
Definition Float64Mul (b : MachineOperatorBuilder) : Operator.t :=
  BINOP_C IrOpcode.kFloat64Mul.
Definition Float64Div (b : MachineOperatorBuilder) : Operator.t :=
  BINOP IrOpcode.kFloat64Div.
Definition Float64Mod (b : MachineOperatorBuilder) : Operator.t :=
  BINOP IrOpcode.kFloat64Mod.
Definition Float64Equal (b : MachineOperatorBuilder) : Operator.t :=
  BINOP_C IrOpcode.kFloat64Equal.
Definition Float64LessThan (b : MachineOperatorBuilder) : Operator.t :=
  BINOP IrOpcode.kFloat64LessThan.
Definition Float64LessThanOrEqual (b : MachineOperatorBuilder) : Operator.t :=
  BINOP IrOpcode.kFloat64LessThanOrEqual.
(** [WORD_SIZE(x)]: [is64() ? Word64##x() : Word32##x()]. *)
Definition WordAnd (b : MachineOperatorBuilder) : Operator.t :=
  if is64 b then Word64And b else Word32And b.
Definition WordOr (b : MachineOperatorBuilder) : Operator.t :=
  if is64 b then Word64Or b else Word32Or b.
Definition WordXor (b : MachineOperatorBuilder) : Operator.t :=
  if is64 b then Word64Xor b else Word32Xor b.
Definition WordShl (b : MachineOperatorBuilder) : Operator.t :=
  if is64 b then Word64Shl b else Word32Shl b.
Definition WordShr (b : MachineOperatorBuilder) : Operator.t :=
  if is64 b then Word64Shr b else Word32Shr b.
Definition WordSar (b : MachineOperatorBuilder) : Operator.t :=
  if is64 b then Word64Sar b else Word32Sar b.
Definition WordEqual (b : MachineOperatorBuilder) : Operator.t :=
  if is64 b then Word64Equal b else Word32Equal b.

(** ** The catalog: one constructor per factory method of the builder *)

Inductive Method : Type :=
  | mLoad (rep : MachineRepresentation)
  | mStore (rep : MachineRepresentation) (kind : WriteBarrierKind)
  | mWordAnd
  | mWordOr
  | mWordXor
  | mWordShl
  | mWordShr
  | mWordSar
  | mWordEqual
  | mWord32And
  | mWord32Or
  | mWord32Xor
  | mWord32Shl
  | mWord32Shr
  | mWord32Sar
  | mWord32Equal
  | mWord64And
  | mWord64Or
  | mWord64Xor
  | mWord64Shl
  | mWord64Shr
  | mWord64Sar
  | mWord64Equal
  | mInt32Add
  | mInt32Sub
  | mInt32Mul
  | mInt32Div
  | mInt32UDiv
  | mInt32Mod
  | mInt32UMod
  | mInt32LessThan
  | mInt32LessThanOrEqual
  | mUint32LessThan
  | mUint32LessThanOrEqual
  | mInt64Add
  | mInt64Sub
  | mInt64Mul
  | mInt64Div
  | mInt64UDiv
  | mInt64Mod
  | mInt64UMod
  | mInt64LessThan
  | mInt64LessThanOrEqual
  | mConvertInt32ToInt64
  | mConvertInt64ToInt32
  | mConvertInt32ToFloat64
  | mConvertUint32ToFloat64
  | mConvertFloat64ToInt32
  | mConvertFloat64ToUint32
  | mFloat64Add
  | mFloat64Sub
  | mFloat64Mul
  | mFloat64Div
  | mFloat64Mod
  | mFloat64Equal
  | mFloat64LessThan
  | mFloat64LessThanOrEqual
.

Definition call (b : MachineOperatorBuilder) (m : Method) : Operator.t :=
  match m with
  | mLoad rep => Load b rep
  | mStore rep kind => Store b rep kind
  | mWordAnd => WordAnd b
  | mWordOr => WordOr b
  | mWordXor => WordXor b
  | mWordShl => WordShl b
  | mWordShr => WordShr b
  | mWordSar => WordSar b
  | mWordEqual => WordEqual b
  | mWord32And => Word32And b
  | mWord32Or => Word32Or b
  | mWord32Xor => Word32Xor b
  | mWord32Shl => Word32Shl b
  | mWord32Shr => Word32Shr b
  | mWord32Sar => Word32Sar b
  | mWord32Equal => Word32Equal b
  | mWord64And => Word64And b
  | mWord64Or => Word64Or b
  | mWord64Xor => Word64Xor b
  | mWord64Shl => Word64Shl b
  | mWord64Shr => Word64Shr b
  | mWord64Sar => Word64Sar b
  | mWord64Equal => Word64Equal b
  | mInt32Add => Int32Add b
  | mInt32Sub => Int32Sub b
  | mInt32Mul => Int32Mul b
  | mInt32Div => Int32Div b
  | mInt32UDiv => Int32UDiv b
  | mInt32Mod => Int32Mod b
  | mInt32UMod => Int32UMod b
  | mInt32LessThan => Int32LessThan b
  | mInt32LessThanOrEqual => Int32LessThanOrEqual b
  | mUint32LessThan => Uint32LessThan b
  | mUint32LessThanOrEqual => Uint32LessThanOrEqual b
  | mInt64Add => Int64Add b
  | mInt64Sub => Int64Sub b
  | mInt64Mul => Int64Mul b
  | mInt64Div => Int64Div b
  | mInt64UDiv => Int64UDiv b
  | mInt64Mod => Int64Mod b
  | mInt64UMod => Int64UMod b
  | mInt64LessThan => Int64LessThan b
  | mInt64LessThanOrEqual => Int64LessThanOrEqual b
  | mConvertInt32ToInt64 => ConvertInt32ToInt64 b
  | mConvertInt64ToInt32 => ConvertInt64ToInt32 b
  | mConvertInt32ToFloat64 => ConvertInt32ToFloat64 b
  | mConvertUint32ToFloat64 => ConvertUint32ToFloat64 b
  | mConvertFloat64ToInt32 => ConvertFloat64ToInt32 b
  | mConvertFloat64ToUint32 => ConvertFloat64ToUint32 b
  | mFloat64Add => Float64Add b
  | mFloat64Sub => Float64Sub b
  | mFloat64Mul => Float64Mul b
  | mFloat64Div => Float64Div b
  | mFloat64Mod => Float64Mod b
  | mFloat64Equal => Float64Equal b
  | mFloat64LessThan => Float64LessThan b
  | mFloat64LessThanOrEqual => Float64LessThanOrEqual b
  end.
(** The parameterized factory methods, built through [OP1]; every other
    method goes through [SIMPLE]. *)
Definition is_parameterized (m : Method) : bool :=
  match m with
  | mLoad _ | mStore _ _ => true
  | _ => false
  end.

(** The operators the spec documents as commutative. *)
Definition documented_commutative (op : IrOpcode.Value) : bool :=
  match op with
  | IrOpcode.kInt32Add | IrOpcode.kInt32Mul
  | IrOpcode.kWord32And | IrOpcode.kWord32Or | IrOpcode.kWord32Xor
  | IrOpcode.kWord32Equal
  | IrOpcode.kFloat64Add | IrOpcode.kFloat64Mul | IrOpcode.kFloat64Equal
  | IrOpcode.kInt64Add | IrOpcode.kInt64Mul
  | IrOpcode.kWord64And | IrOpcode.kWord64Or | IrOpcode.kWord64Xor
  | IrOpcode.kWord64Equal => true
  | _ => false
  end.

(** The operators the spec documents as associative. *)
Definition documented_associative (op : IrOpcode.Value) : bool :=
  match op with
  | IrOpcode.kInt32Add | IrOpcode.kInt64Add
  | IrOpcode.kInt32Mul | IrOpcode.kInt64Mul
  | IrOpcode.kWord32And | IrOpcode.kWord64And
  | IrOpcode.kWord32Or | IrOpcode.kWord64Or
  | IrOpcode.kWord32Xor | IrOpcode.kWord64Xor => true
  | _ => false
  end.

(** The builder of a 64-bit target, on some arena. *)
Definition builder64 : MachineOperatorBuilder :=
  {| zone_ := 0%nat; word_ := kMachineWord64 |}.

Example Int32LessThanOrEqual_scenario :
  let op := Int32LessThanOrEqual builder64 in
  Operator.opcode op = IrOpcode.kInt32LessThanOrEqual /\
  Operator.input_count op = 2%nat /\ Operator.output_count op = 1%nat /\
  Operator.properties op = Operator.kPure /\
  Operator.parameter op = Operator.NoParameter.
Proof. repeat split. Qed.

(** ** Claims *)

(** C1: for every representation [r], [Load(r)] has input arity 2, output
    arity 1, the NoWrite bit set and the NoRead bit unset. *)
Theorem Load_shape :
  forall (b : MachineOperatorBuilder) (r : MachineRepresentation),
    Operator.input_count (Load b r) = 2%nat /\
    Operator.output_count (Load b r) = 1%nat /\
    Operator.HasProperty (Load b r) Operator.kNoWrite = true /\
    Operator.HasProperty (Load b r) Operator.kNoRead = false.
Proof. intros b r. repeat split. Qed.

(** C2: for every representation [r] and barrier kind [k], [Store(r, k)] has
    input arity 3, output arity 0, the NoRead bit set and parameter [{r, k}]. *)
Theorem Store_shape :
  forall (b : MachineOperatorBuilder) (r : MachineRepresentation)
         (k : WriteBarrierKind),
    Operator.input_count (Store b r k) = 3%nat /\
    Operator.output_count (Store b r k) = 0%nat /\
    Operator.HasProperty (Store b r k) Operator.kNoRead = true /\
    Operator.parameter (Store b r k) =
      Operator.StoreParameter {| rep := r; write_barrier_kind := k |}.
Proof. intros b r k. repeat split. Qed.

(** C3 (as stated, refuted): on the 64-bit builder, the property set of
    [Store(Tagged, FullWriteBarrier)] is not exactly [{NoRead}]: [NoThrow]
    is set as well. *)
Lemma Store_tagged_full_not_only_NoRead :
  match MachineOperatorBuilder_new 0%nat kMachineWord64 with
  | Some b =>
      Operator.properties (Store b kMachineTagged kFullWriteBarrier)
        <> Operator.kNoRead /\
      Operator.HasProperty (Store b kMachineTagged kFullWriteBarrier)
        Operator.kNoThrow = true
  | None => False
  end.
Proof. vm_compute. split; [discriminate | reflexivity]. Qed.

(** C3 (amended): a 64-bit builder is constructed on any arena, and its
    [Store(Tagged, FullWriteBarrier)] has parameter [{Tagged, FullWriteBarrier}],
    arity (3, 0) and property set exactly [{NoRead, NoThrow}]. *)
Theorem Store_tagged_full_scenario :
  forall z : Zone,
  match MachineOperatorBuilder_new z kMachineWord64 with
  | Some b =>
      let op := Store b kMachineTagged kFullWriteBarrier in
      Operator.parameter op =
        Operator.StoreParameter
          {| rep := kMachineTagged; write_barrier_kind := kFullWriteBarrier |} /\
      Operator.input_count op = 3%nat /\ Operator.output_count op = 0%nat /\
      Operator.properties op = Z.lor Operator.kNoRead Operator.kNoThrow /\
      Operator.HasProperty op Operator.kPure = false /\
      Operator.HasProperty op Operator.kCommutative = false /\
      Operator.HasProperty op Operator.kAssociative = false /\
      Operator.HasProperty op Operator.kNoWrite = false
  | None => False
  end.
Proof. intro z. repeat split. Qed.

(** C4: on a builder whose word is 32-bit, each word-width-generic method
    returns the same descriptor as its [Word32] variant; on a builder whose
    word is 64-bit, the same as its [Word64] variant. *)
Theorem WordX_dispatch :
  forall b : MachineOperatorBuilder,
    (word_ b = kMachineWord32 ->
       WordAnd b = Word32And b /\ WordOr b = Word32Or b /\
       WordXor b = Word32Xor b /\ WordShl b = Word32Shl b /\
       WordShr b = Word32Shr b /\ WordSar b = Word32Sar b /\
       WordEqual b = Word32Equal b) /\
    (word_ b = kMachineWord64 ->
       WordAnd b = Word64And b /\ WordOr b = Word64Or b /\
       WordXor b = Word64Xor b /\ WordShl b = Word64Shl b /\
       WordShr b = Word64Shr b /\ WordSar b = Word64Sar b /\
       WordEqual b = Word64Equal b).
Proof.
  intros [z w]; simpl; split; intros ->;
    unfold WordAnd, WordOr, WordXor, WordShl, WordShr, WordSar, WordEqual,
      is64; simpl; repeat split.
Qed.

Lemma WordX_dispatch_witness :
  (WordAnd {| zone_ := 0%nat; word_ := kMachineWord32 |}
     = Word32And {| zone_ := 0%nat; word_ := kMachineWord32 |}) /\
  (WordAnd builder64 = Word64And builder64).
Proof.
  split.
  - apply (proj1 (WordX_dispatch {| zone_ := 0%nat; word_ := kMachineWord32 |})).
    reflexivity.
  - apply (proj2 (WordX_dispatch builder64)). reflexivity.
Defined.

(** C5: construction succeeds exactly for the 32-bit and 64-bit words, and
    then stores the given word; for any other word it fails ([CHECK] abort). *)
Theorem MachineOperatorBuilder_new_legal :
  forall (z : Zone) (w : MachineRepresentation),
    match MachineOperatorBuilder_new z w with
    | Some b => word_ b = w /\ zone_ b = z /\
                (w = kMachineWord32 \/ w = kMachineWord64)
    | None => w <> kMachineWord32 /\ w <> kMachineWord64
    end.
Proof.
  intros z w; destruct w; simpl; repeat split; auto; discriminate.
Qed.

(** C6: for every factory method, the descriptor it returns has the
    Commutative bit exactly when its opcode is one of the documented
    commutative operators. *)
Theorem Commutative_exactly_documented :
  forall (b : MachineOperatorBuilder) (m : Method),
    Operator.HasProperty (call b m) Operator.kCommutative =
    documented_commutative (Operator.opcode (call b m)).
Proof.
  intros b m; destruct m; simpl;
    try (unfold WordAnd, WordOr, WordXor, WordShl, WordShr, WordSar, WordEqual;
         destruct (is64 b));
    reflexivity.
Qed.

(** C7: for every factory method, Associative implies Commutative, and the
    Associative bit is set exactly on the documented associative operators;
    [Float64Add] and [Float64Mul] do not carry it. *)
Theorem Associative_exactly_documented :
  forall (b : MachineOperatorBuilder) (m : Method),
    implb (Operator.HasProperty (call b m) Operator.kAssociative)
          (Operator.HasProperty (call b m) Operator.kCommutative) = true /\
    Operator.HasProperty (call b m) Operator.kAssociative =
    documented_associative (Operator.opcode (call b m)) /\
    Operator.HasProperty (Float64Add b) Operator.kAssociative = false /\
    Operator.HasProperty (Float64Mul b) Operator.kAssociative = false.
Proof.
  intros b m; destruct m; simpl;
    try (unfold WordAnd, WordOr, WordXor, WordShl, WordShr, WordSar, WordEqual;
         destruct (is64 b));
    repeat split.
Qed.

(** C8: every factory method, called on two builders with the same word
    (whatever their arenas), returns equal descriptors: same opcode,
    properties, arities, mnemonic and parameter. *)
Theorem call_deterministic :
  forall (b1 b2 : MachineOperatorBuilder) (m : Method),
    word_ b1 = word_ b2 -> call b1 m = call b2 m.
Proof.
  intros b1 b2 m Hw; destruct m; simpl; try reflexivity;
    unfold WordAnd, WordOr, WordXor, WordShl, WordShr, WordSar, WordEqual, is64;
    rewrite Hw; reflexivity.
Qed.

Lemma call_deterministic_witness :
  call {| zone_ := 0%nat; word_ := kMachineWord64 |} mWordShl =
  call {| zone_ := 7%nat; word_ := kMachineWord64 |} mWordShl.
Proof. apply call_deterministic. reflexivity. Defined.

(** C9: two Load descriptors are equal exactly when their representations
    are. *)
Theorem Load_identity :
  forall (b1 b2 : MachineOperatorBuilder) (r1 r2 : MachineRepresentation),
    Load b1 r1 = Load b2 r2 <-> r1 = r2.
Proof.
  intros b1 b2 r1 r2; split.
  - intro H. injection H. auto.
  - intros ->. reflexivity.
Qed.

(** C10: the descriptors of the parameterized methods [Load] and [Store]
    carry NoThrow, and no method built through [SIMPLE] does. *)
Theorem NoThrow_exactly_parameterized :
  forall (b : MachineOperatorBuilder) (m : Method),
    Operator.HasProperty (call b m) Operator.kNoThrow = is_parameterized m.
Proof.
  intros b m; destruct m; simpl;
    try (unfold WordAnd, WordOr, WordXor, WordShl, WordShr, WordSar, WordEqual;
         destruct (is64 b));
    reflexivity.
Qed.

(** ** Further properties of the builder *)

(** The word-width-generic methods ([WORD_SIZE]). *)
Definition is_word_generic (m : Method) : bool :=
  match m with
  | mWordAnd | mWordOr | mWordXor | mWordShl | mWordShr | mWordSar
  | mWordEqual => true
  | _ => false
  end.

(** The conversion opcodes, built through [UNOP]. *)
Definition is_conversion (op : IrOpcode.Value) : bool :=
  match op with
  | IrOpcode.kConvertInt32ToInt64 | IrOpcode.kConvertInt64ToInt32
  | IrOpcode.kConvertInt32ToFloat64 | IrOpcode.kConvertUint32ToFloat64
  | IrOpcode.kConvertFloat64ToInt32 | IrOpcode.kConvertFloat64ToUint32 => true
  | _ => false
  end.

Ltac unfold_word_size :=
  unfold WordAnd, WordOr, WordXor, WordShl, WordShr, WordSar, WordEqual.

(** The default word [pointer_rep()] is always legal: a builder constructed
    with it never aborts, and it is 64-bit exactly when [kPointerSize == 8]. *)
Theorem pointer_rep_default_legal :
  forall (z : Zone) (ps : Z),
    match MachineOperatorBuilder_new z (pointer_rep ps) with
    | Some b => is64 b = (ps =? 8) /\ is32 b = negb (ps =? 8)
    | None => False
    end.
Proof.
  intros z ps; unfold pointer_rep; destruct (ps =? 8); simpl; split; reflexivity.
Qed.

(** On a constructed builder exactly one of [is32()] and [is64()] holds, so
    the [else] branch of [WORD_SIZE] is taken only on 32-bit builders. *)
Theorem constructed_is32_xor_is64 :
  forall (z : Zone) (w : MachineRepresentation) (b : MachineOperatorBuilder),
    MachineOperatorBuilder_new z w = Some b -> is32 b = negb (is64 b).
Proof.
  intros z w b H; destruct w; simpl in H; try discriminate;
    injection H as <-; reflexivity.
Qed.

Lemma constructed_is32_xor_is64_witness :
  MachineOperatorBuilder_new 3%nat kMachineWord32
    = Some {| zone_ := 3%nat; word_ := kMachineWord32 |} /\
  is32 {| zone_ := 3%nat; word_ := kMachineWord32 |}
    = negb (is64 {| zone_ := 3%nat; word_ := kMachineWord32 |}).
Proof.
  split; [reflexivity|].
  apply (constructed_is32_xor_is64 3%nat kMachineWord32). reflexivity.
Defined.

(** The properties, arities and parameter of a word-width-generic operator do
    not depend on the builder's word: only the opcode and mnemonic do. *)
Theorem word_generic_props_width_independent :
  forall (b1 b2 : MachineOperatorBuilder) (m : Method),
    is_word_generic m = true ->
    Operator.properties (call b1 m) = Operator.properties (call b2 m) /\
    Operator.input_count (call b1 m) = Operator.input_count (call b2 m) /\
    Operator.output_count (call b1 m) = Operator.output_count (call b2 m) /\
    Operator.parameter (call b1 m) = Operator.parameter (call b2 m).
Proof.
  intros b1 b2 m Hm; destruct m; try discriminate; simpl; unfold_word_size;
    destruct (is64 b1), (is64 b2); repeat split.
Qed.

Lemma word_generic_props_width_independent_witness :
  Operator.properties (call builder64 mWordAnd) =
  Operator.properties (call {| zone_ := 0%nat; word_ := kMachineWord32 |} mWordAnd).
Proof.
  apply (word_generic_props_width_independent builder64
           {| zone_ := 0%nat; word_ := kMachineWord32 |} mWordAnd).
  reflexivity.
Defined.

(** The mnemonic [#name] of every catalog descriptor is the name of its
    opcode, and two catalog descriptors share a mnemonic exactly when they
    share an opcode. *)
Theorem mnemonic_identifies_opcode :
  forall (b1 b2 : MachineOperatorBuilder) (m1 m2 : Method),
    Operator.mnemonic (call b1 m1) = IrOpcode.name (Operator.opcode (call b1 m1)) /\
    (Operator.mnemonic (call b1 m1) = Operator.mnemonic (call b2 m2) <->
     Operator.opcode (call b1 m1) = Operator.opcode (call b2 m2)).
Proof.
  assert (Hname : forall o1 o2, IrOpcode.name o1 = IrOpcode.name o2 -> o1 = o2)
    by (intros o1 o2; destruct o1, o2; simpl; congruence).
  assert (Hm : forall b m,
             Operator.mnemonic (call b m) = IrOpcode.name (Operator.opcode (call b m)))
    by (intros b m; destruct m; simpl; try reflexivity; unfold_word_size;
        destruct (is64 b); reflexivity).
  intros b1 b2 m1 m2; split; [apply Hm|].
  rewrite (Hm b1 m1), (Hm b2 m2); split; [apply Hname | intros ->; reflexivity].
Qed.

(** Distinct fixed-width factory methods (every method but the
    word-width-generic ones), with their arguments, never return equal
    descriptors on the same builder. *)
Theorem fixed_methods_distinct :
  forall (b : MachineOperatorBuilder) (m1 m2 : Method),
    is_word_generic m1 = false -> is_word_generic m2 = false ->
    call b m1 = call b m2 -> m1 = m2.
Proof.
  intros b m1 m2 H1 H2 H.
  destruct m1; try discriminate H1; destruct m2; try discriminate H2;
    simpl in H; try discriminate H;
    first [ reflexivity | injection H as Hr; subst; reflexivity
          | injection H as Hr Hk; subst; reflexivity ].
Qed.

Lemma fixed_methods_distinct_witness :
  mStore kMachineTagged kNoWriteBarrier = mStore kMachineTagged kNoWriteBarrier.
Proof.
  apply (fixed_methods_distinct builder64); reflexivity.
Defined.

(** [Store] descriptors are equal exactly when representation and barrier
    kind are; in particular the default [Store(rep)] (no write barrier) is
    never the full-barrier store. *)
Theorem Store_identity :
  forall (b1 b2 : MachineOperatorBuilder) (r1 r2 : MachineRepresentation)
         (k1 k2 : WriteBarrierKind),
    (Store b1 r1 k1 = Store b2 r2 k2 <-> r1 = r2 /\ k1 = k2) /\
    Store_default b1 r1 <> Store b2 r2 kFullWriteBarrier.
Proof.
  intros b1 b2 r1 r2 k1 k2; split.
  - split.
    + intro H. injection H as Hr Hk. auto.
    + intros [-> ->]. reflexivity.
  - unfold Store_default. intro H. injection H as _ Hk. discriminate Hk.
Qed.

(** A [Store] is not NoWrite, Pure, Commutative nor Associative, whatever
    its representation and barrier kind. *)
Theorem Store_effects :
  forall (b : MachineOperatorBuilder) (r : MachineRepresentation)
         (k : WriteBarrierKind),
    Operator.HasProperty (Store b r k) Operator.kNoWrite = false /\
    Operator.HasProperty (Store b r k) Operator.kPure = false /\
    Operator.HasProperty (Store b r k) Operator.kCommutative = false /\
    Operator.HasProperty (Store b r k) Operator.kAssociative = false.
Proof. intros b r k. repeat split. Qed.

(** Exactly the operators built through [SIMPLE] are Pure: [Load] and
    [Store] are not. *)
Theorem Pure_exactly_simple :
  forall (b : MachineOperatorBuilder) (m : Method),
    Operator.HasProperty (call b m) Operator.kPure = negb (is_parameterized m).
Proof.
  intros b m; destruct m; simpl;
    try (unfold_word_size; destruct (is64 b)); reflexivity.
Qed.

(** Every operator built through [SIMPLE] has one output and no parameter,
    and one input for a conversion ([UNOP]), two otherwise. *)
Theorem simple_shape :
  forall (b : MachineOperatorBuilder) (m : Method),
    is_parameterized m = false ->
    Operator.output_count (call b m) = 1%nat /\
    Operator.parameter (call b m) = Operator.NoParameter /\
    Operator.input_count (call b m) =
      (if is_conversion (Operator.opcode (call b m)) then 1 else 2)%nat.
Proof.
  intros b m Hm; destruct m; try discriminate Hm; simpl;
    try (unfold_word_size; destruct (is64 b)); repeat split.
Qed.

Lemma simple_shape_witness :
  Operator.input_count (call builder64 mConvertFloat64ToInt32) = 1%nat.
Proof.
  apply (simple_shape builder64 mConvertFloat64ToInt32). reflexivity.
Defined.

(** [Store] is the only catalog operator with no output. *)
Theorem no_output_iff_Store :
  forall (b : MachineOperatorBuilder) (m : Method),
    Operator.output_count (call b m) = 0%nat <->
    Operator.opcode (call b m) = IrOpcode.kStore.
Proof.
  intros b m; destruct m; simpl;
    try (unfold_word_size; destruct (is64 b)); simpl; split; congruence.
Qed.
